(** * kerberos.ticket: the ticket-lifecycle decision engine

    A shallow embedding of [library/kerberos.ticket.py] (an Ansible module
    that obtains a Kerberos ticket through [klist], [kdestroy] and [kinit])
    and the properties of its decision logic and of its handling of the
    password.

    The Python module keeps two module-level variables, [cmd] and
    [password], talks to the outside only through [os.popen], and leaves
    through [module.exit_json] / [module.fail_json], which raise
    [SystemExit].  The embedding therefore runs in a small state and exit
    monad: the state holds the two globals, the registered [atexit]
    handlers, the host (an abstract [World] that answers shell commands)
    and a log of the commands handed to [os.popen]. *)

From Stdlib Require Import String Ascii List ZArith Bool Lia.
Import ListNotations.
Open Scope string_scope.

(** ** Python values used by the module *)

(** A module-level name: deleted, bound to [None], or bound to a string. *)
Inductive pyvar : Type :=
| Unbound
| PyNone
| PyStr (s : string).

(** What a pipe opened by [os.popen] gives back: the text of [read()] and
    the value of [close()], which is [None] when the command exited with
    status 0 and the (non-zero) wait status otherwise. *)
Record popen_result : Type := mkPopen {
  read : string;
  close : option Z
}.

(** Truth value of what [close()] returns ([if shell.close():]). *)
Definition truthy (st : option Z) : bool :=
  match st with
  | None => false
  | Some n => negb (Z.eqb n 0)
  end.

(** [s.find(sub)]: index of the first occurrence of [sub] in [s], or -1. *)
Definition py_find (s sub : string) : Z :=
  match index 0 sub s with
  | Some i => Z.of_nat i
  | None => (-1)%Z
  end.

(** [cmd_output.find(principal) != -1] *)
Definition found (s sub : string) : bool :=
  negb (Z.eqb (py_find s sub) (-1)).

(** [sub] occurs somewhere in [s]. *)
Definition is_substring (sub s : string) : Prop :=
  exists a b, s = a ++ sub ++ b.

(** ** Requests and results *)

(** The arguments as they reach [AnsibleModule], before validation: a key
    that is absent from the task is [None]. *)
Record Invocation : Type := mkInvocation {
  arg_username : option string;
  arg_password : option string;
  arg_realm : option string;
  arg_force : option bool;
  arg_forwardable : option bool;
  arg_check_mode : bool
}.

(** [module.params] after validation, and [module.check_mode]. *)
Record AnsibleModule_t : Type := mkModule {
  param_username : string;
  param_password : string;
  param_realm : string;
  param_force : bool;
  param_forwardable : option bool;
  check_mode : bool
}.

(** The [result] dictionary of [run_module]. *)
Module Result.
Record t : Type := mk {
  changed : bool;
  username : string;
  password : string;
  realm : string;
  principal : string;
  force : bool;
  forwardable : string
}.

(** [result['changed'] = v] *)
Definition set_changed (v : bool) (r : t) : t :=
  mk v (username r) (password r) (realm r) (principal r) (force r)
     (forwardable r).
End Result.

(** How a run leaves: [module.exit_json] with the result as keyword
    arguments, [module.fail_json] with a message and the result, or the
    rejection of the arguments by [AnsibleModule] itself. *)
Inductive Outcome : Type :=
| ExitJson (kwargs : Result.t)
| FailJson (msg : string) (kwargs : Result.t)
| FailArgs.

Inductive exn : Type :=
| NameError
| TypeError.

Inductive Res (A : Type) : Type :=
| Ret (a : A)
| SystemExit (o : Outcome)
| Raise (e : exn).

Arguments Ret {A} a.
Arguments SystemExit {A} o.
Arguments Raise {A} e.

(** Functions that can be registered with [atexit]. *)
Inductive atexit_fn : Type :=
| ClearSensitiveData.

(** ** The shell commands *)

Definition klist_s : string := "klist -s".
Definition klist_l : string := "klist -l".

(** ["kdestroy -q -p %s 2>&1" % principal] *)
Definition kdestroy_cmd (principal : string) : string :=
  "kdestroy -q -p " ++ principal ++ " 2>&1".

(** ["echo -n '%s' | kinit %s %s 2>&1 >/dev/null"
      % (password, forwardable, principal)] *)
Definition kinit_cmd (password forwardable principal : string) : string :=
  "echo -n '" ++ password ++ "' | kinit " ++ forwardable ++ " " ++ principal
    ++ " 2>&1 >/dev/null".

(** The flag given to [kinit] for the [forwardable] parameter. *)
Definition forwardable_flag (f : option bool) : string :=
  match f with
  | None => ""
  | Some true => "-f"
  | Some false => "-F"
  end.

Definition REDACTED : string := "[REDACTED]".

Section Engine.

(** The host: everything a shell command can read or change (the ticket
    cache among it).  [os_popen w c] runs the command line [c] in [w] to
    completion. *)
Variable World : Type.
Variable os_popen : World -> string -> World * popen_result.

Record State : Type := mkState {
  world : World;
  cmd : pyvar;
  password : pyvar;
  atexit : list atexit_fn;
  calls : list (string * popen_result)
}.

Definition M (A : Type) : Type := State -> Res A * State.

Definition ret {A} (a : A) : M A := fun st => (Ret a, st).

Definition bind {A B} (m : M A) (k : A -> M B) : M B :=
  fun st =>
    match m st with
    | (Ret a, st') => k a st'
    | (SystemExit o, st') => (SystemExit o, st')
    | (Raise e, st') => (Raise e, st')
    end.

Notation "x <- m ;; k" := (bind m (fun x => k))
  (at level 61, m at next level, right associativity).
Notation "m ;; k" := (bind m (fun _ => k))
  (at level 61, right associativity).

Definition when (b : bool) (m : M unit) : M unit :=
  if b then m else ret tt.

(** *** Module-level variables *)

Definition assign_cmd (v : pyvar) : M unit :=
  fun st => (Ret tt,
             mkState (world st) v (password st) (atexit st) (calls st)).

Definition assign_password (v : pyvar) : M unit :=
  fun st => (Ret tt,
             mkState (world st) (cmd st) v (atexit st) (calls st)).

Definition del_cmd : M unit :=
  fun st =>
    match cmd st with
    | Unbound => (Raise NameError, st)
    | _ => (Ret tt,
            mkState (world st) Unbound (password st) (atexit st) (calls st))
    end.

Definition del_password : M unit :=
  fun st =>
    match password st with
    | Unbound => (Raise NameError, st)
    | _ => (Ret tt,
            mkState (world st) (cmd st) Unbound (atexit st) (calls st))
    end.

(** Reading a global for [%s] formatting. *)
Definition format_password : M string :=
  fun st =>
    match password st with
    | Unbound => (Raise NameError, st)
    | PyNone => (Ret "None", st)
    | PyStr s => (Ret s, st)
    end.

(** [gc.collect()] changes nothing that the model can see. *)
Definition gc_collect : M unit := ret tt.

Definition atexit_register (f : atexit_fn) : M unit :=
  fun st => (Ret tt,
             mkState (world st) (cmd st) (password st) (f :: atexit st)
                     (calls st)).

(** *** The outside *)

(** [shell = os.popen(cmd)], with the global [cmd] as the command line. *)
Definition popen_cmd : M popen_result :=
  fun st =>
    match cmd st with
    | Unbound => (Raise NameError, st)
    | PyNone => (Raise TypeError, st)
    | PyStr c =>
        let (w', r) := os_popen (world st) c in
        (Ret r,
         mkState w' (cmd st) (password st) (atexit st)
                 (calls st ++ [(c, r)])%list)
    end.

Definition exit_json (kwargs : Result.t) : M unit :=
  fun st => (SystemExit (ExitJson kwargs), st).

Definition fail_json (msg : string) (kwargs : Result.t) : M unit :=
  fun st => (SystemExit (FailJson msg kwargs), st).

(** [AnsibleModule(argument_spec=module_args, supports_check_mode=True)]
    for the [module_args] of the source: [username], [password] and
    [realm] are required, [force] defaults to [False] and [forwardable]
    to [None].  A missing required argument makes the constructor fail
    and exit. *)
Definition AnsibleModule (inv : Invocation) : M AnsibleModule_t :=
  match arg_username inv, arg_password inv, arg_realm inv with
  | Some u, Some p, Some r =>
      ret (mkModule u p r
                    (match arg_force inv with Some b => b | None => false end)
                    (arg_forwardable inv)
                    (arg_check_mode inv))
  | _, _, _ => fun st => (SystemExit FailArgs, st)
  end.

(** *** The module *)

Definition clear_sensitive_data : M unit :=
  del_cmd ;;
  del_password ;;
  gc_collect.

Definition run_module (inv : Invocation) : M unit :=
  module <- AnsibleModule inv ;;
  atexit_register ClearSensitiveData ;;
  let username := param_username module in
  assign_password (PyStr (param_password module)) ;;
  let realm := param_realm module in
  let force := param_force module in
  let forwardable := forwardable_flag (param_forwardable module) in
  let principal := username ++ "@" ++ realm in
  let result :=
    Result.mk false username REDACTED realm principal force forwardable in
  when (check_mode module)
    (when (negb force)
       (assign_cmd (PyStr klist_s) ;;
        shell <- popen_cmd ;;
        when (negb (truthy (close shell)))
          (assign_cmd (PyStr klist_l) ;;
           shell <- popen_cmd ;;
           let cmd_output := read shell in
           when (found cmd_output principal) (exit_json result))) ;;
     let result := Result.set_changed true result in
     exit_json result) ;;
  (if force then
     assign_cmd (PyStr (kdestroy_cmd principal)) ;;
     shell <- popen_cmd ;;
     ret tt
   else
     assign_cmd (PyStr klist_s) ;;
     shell <- popen_cmd ;;
     when (negb (truthy (close shell)))
       (assign_cmd (PyStr klist_l) ;;
        shell <- popen_cmd ;;
        let cmd_output := read shell in
        when (found cmd_output principal) (exit_json result))) ;;
  pw <- format_password ;;
  assign_cmd (PyStr (kinit_cmd pw forwardable principal)) ;;
  shell <- popen_cmd ;;
  let cmd_output := read shell in
  when (truthy (close shell)) (fail_json cmd_output result) ;;
  assign_cmd PyNone ;;
  assign_password PyNone ;;
  let result := Result.set_changed true result in
  exit_json result.

Definition main (inv : Invocation) : M unit := run_module inv.

(** *** The process around [main] *)

Definition call_atexit (f : atexit_fn) : M unit :=
  match f with
  | ClearSensitiveData => clear_sensitive_data
  end.

(** The interpreter runs the registered functions, last registered
    first; an exception in one of them does not stop the others. *)
Fixpoint run_exitfuncs (fs : list atexit_fn) (st : State) : State :=
  match fs with
  | [] => st
  | f :: fs' => run_exitfuncs fs' (snd (call_atexit f st))
  end.

(** The state in which the interpreter enters [main]:
    [cmd = None], [password = None], nothing registered. *)
Definition initial (w : World) : State :=
  mkState w PyNone PyNone [] [].

(** One request: the script run as [__main__] on host [w]. *)
Definition process (inv : Invocation) (w : World) : Res unit * State :=
  let (r, st) := main inv (initial w) in
  (r, run_exitfuncs (atexit st) st).

Definition commands (st : State) : list string := map fst (calls st).

End Engine.

Arguments process {World} os_popen inv w.
Arguments commands {World} st.
Arguments calls {World} s.
Arguments cmd {World} s.
Arguments password {World} s.
Arguments world {World} s.

(** The keyword arguments an outcome carries, if any. *)
Definition kwargs_of (o : Outcome) : option Result.t :=
  match o with
  | ExitJson k => Some k
  | FailJson _ k => Some k
  | FailArgs => None
  end.

(** A request whose required arguments are all present. *)
Definition request (u p r : string) (f : option bool) (fw : option bool)
    (cm : bool) : Invocation :=
  mkInvocation (Some u) (Some p) (Some r) f fw cm.

Definition force_of (f : option bool) : bool :=
  match f with Some b => b | None => false end.

Arguments kinit_cmd : simpl never.
Arguments kdestroy_cmd : simpl never.
Arguments klist_s : simpl never.
Arguments klist_l : simpl never.

Ltac unfold_engine :=
  unfold process, main, run_module, clear_sensitive_data, AnsibleModule,
    request, bind, when, ret, exit_json, fail_json, popen_cmd, assign_cmd,
    assign_password, atexit_register, format_password, del_cmd, del_password,
    gc_collect, initial, commands in *.

Ltac step_engine :=
  match goal with
  | |- context [match ?f ?w ?c with pair _ _ => _ end] =>
      let w' := fresh "w" in
      let r := fresh "r" in
      let E := fresh "E" in
      destruct (f w c) as [w' r] eqn:E; cbn in *
  | |- context [if ?b then _ else _] =>
      let E := fresh "E" in destruct b eqn:E; cbn in *
  end.

(** What [result] holds when it is built, before any command is run. *)
Definition initial_result (u r : string) (f fw : option bool) : Result.t :=
  Result.mk false u REDACTED r (u ++ "@" ++ r) (force_of f)
            (forwardable_flag fw).

(** How the acquisition step ends, given what the pipeline answered. *)
Definition acquired (u r : string) (f fw : option bool) (ra : popen_result)
  : Res unit :=
  SystemExit (if truthy (close ra)
              then FailJson (read ra) (initial_result u r f fw)
              else ExitJson (Result.set_changed true
                               (initial_result u r f fw))).

(** The state a process leaves behind once its arguments were accepted:
    both globals deleted by the exit handler. *)
Definition final_state (World : Type) (w : World)
    (cs : list (string * popen_result)) : State World :=
  mkState World w Unbound Unbound [ClearSensitiveData] cs.

(** The principal of a request. *)
Definition principal_of (u r : string) : string := u ++ "@" ++ r.

(** [n] requests one after the other on the same host, each a process of
    its own; the outcomes are collected in order, together with every
    command line issued. *)
Fixpoint repeat_process {World}
    (os_popen : World -> string -> World * popen_result)
    (inv : Invocation) (n : nat) (w : World)
  : list (Res unit) * list string * World :=
  match n with
  | O => ([], [], w)
  | S n' =>
      let (res, st) := process os_popen inv w in
      let '(rs, cs, w') := repeat_process os_popen inv n' (world st) in
      (res :: rs, (commands st ++ cs)%list, w')
  end.

(** The eight ways through [run_module] for a request whose arguments are
    accepted: which answers of the host select the way, how the process
    ends and the state it leaves.  [run_path os_popen u p r f fw w cm res st]
    reads: on host [w], with [check_mode = cm], the process ends with [res]
    in state [st]. *)
Inductive run_path {World} (os_popen : World -> string -> World * popen_result)
    (u p r : string) (f fw : option bool) (w : World)
  : bool -> Res unit -> State World -> Prop :=
| DryForce :
    force_of f = true ->
    run_path os_popen u p r f fw w true
      (SystemExit (ExitJson (Result.set_changed true
                               (initial_result u r f fw))))
      (final_state World w [])
| DryInvalid w1 r1 :
    force_of f = false ->
    os_popen w klist_s = (w1, r1) ->
    truthy (close r1) = true ->
    run_path os_popen u p r f fw w true
      (SystemExit (ExitJson (Result.set_changed true
                               (initial_result u r f fw))))
      (final_state World w1 [(klist_s, r1)])
| DryListed w1 r1 w2 r2 :
    force_of f = false ->
    os_popen w klist_s = (w1, r1) ->
    truthy (close r1) = false ->
    os_popen w1 klist_l = (w2, r2) ->
    found (read r2) (principal_of u r) = true ->
    run_path os_popen u p r f fw w true
      (SystemExit (ExitJson (initial_result u r f fw)))
      (final_state World w2 [(klist_s, r1); (klist_l, r2)])
| DryUnlisted w1 r1 w2 r2 :
    force_of f = false ->
    os_popen w klist_s = (w1, r1) ->
    truthy (close r1) = false ->
    os_popen w1 klist_l = (w2, r2) ->
    found (read r2) (principal_of u r) = false ->
    run_path os_popen u p r f fw w true
      (SystemExit (ExitJson (Result.set_changed true
                               (initial_result u r f fw))))
      (final_state World w2 [(klist_s, r1); (klist_l, r2)])
| RunForce w1 r1 w2 r2 :
    force_of f = true ->
    os_popen w (kdestroy_cmd (principal_of u r)) = (w1, r1) ->
    os_popen w1 (kinit_cmd p (forwardable_flag fw) (principal_of u r))
      = (w2, r2) ->
    run_path os_popen u p r f fw w false
      (acquired u r f fw r2)
      (final_state World w2
         [(kdestroy_cmd (principal_of u r), r1);
          (kinit_cmd p (forwardable_flag fw) (principal_of u r), r2)])
| RunInvalid w1 r1 w2 r2 :
    force_of f = false ->
    os_popen w klist_s = (w1, r1) ->
    truthy (close r1) = true ->
    os_popen w1 (kinit_cmd p (forwardable_flag fw) (principal_of u r))
      = (w2, r2) ->
    run_path os_popen u p r f fw w false
      (acquired u r f fw r2)
      (final_state World w2
         [(klist_s, r1);
          (kinit_cmd p (forwardable_flag fw) (principal_of u r), r2)])
| RunListed w1 r1 w2 r2 :
    force_of f = false ->
    os_popen w klist_s = (w1, r1) ->
    truthy (close r1) = false ->
    os_popen w1 klist_l = (w2, r2) ->
    found (read r2) (principal_of u r) = true ->
    run_path os_popen u p r f fw w false
      (SystemExit (ExitJson (initial_result u r f fw)))
      (final_state World w2 [(klist_s, r1); (klist_l, r2)])
| RunUnlisted w1 r1 w2 r2 w3 r3 :
    force_of f = false ->
    os_popen w klist_s = (w1, r1) ->
    truthy (close r1) = false ->
    os_popen w1 klist_l = (w2, r2) ->
    found (read r2) (principal_of u r) = false ->
    os_popen w2 (kinit_cmd p (forwardable_flag fw) (principal_of u r))
      = (w3, r3) ->
    run_path os_popen u p r f fw w false
      (acquired u r f fw r3)
      (final_state World w3
         [(klist_s, r1); (klist_l, r2);
          (kinit_cmd p (forwardable_flag fw) (principal_of u r), r3)]).

(** Two logs of commands that are the same, or the same up to a last
    entry that is the command [c] in the one and [c'] in the other. *)
Definition differ_in_last_only (c c' : string)
    (cs cs' : list (string * popen_result)) : Prop :=
  cs = cs' \/
  exists pre ra ra',
    cs = (pre ++ [(c, ra)])%list /\ cs' = (pre ++ [(c', ra')])%list.

(** ** Example hosts

    Hosts without state of their own, used to run the module on concrete
    requests: the answer depends on the command line only. *)

Definition stateless (answer : string -> popen_result)
  : unit -> string -> unit * popen_result :=
  fun w c => (w, answer c).

(** [klist -s] ends with [status], [klist -l] prints [listing], [kdestroy]
    succeeds and anything else (the [kinit] pipeline) answers [acquire]. *)
Definition answer (status : option Z) (listing : string)
    (acquire : popen_result) (c : string) : popen_result :=
  if (c =? klist_s)%string then mkPopen "" status
  else if (c =? klist_l)%string then mkPopen listing None
  else if prefix "kdestroy" c then mkPopen "" None
  else acquire.

Definition ok : popen_result := mkPopen "" None.

(** Exit status 1 as [close()] reports it (the wait status, [1 << 8]). *)
Definition exit_1 : option Z := Some 256%Z.

(** Exit status 127, which the shell gives when it cannot find the
    program to run ([127 << 8]). *)
Definition exit_127 : option Z := Some 32512%Z.

Definition alice : Invocation :=
  request "alice" "hunter2" "EXAMPLE.COM" None None false.

(** A host with a ticket cache for one principal [pr]: the state says
    whether [pr] holds a valid ticket.  [kdestroy] empties the cache and
    the [kinit] pipeline fills it. *)
Definition cache_host (pr : string) (w : bool) (c : string)
  : bool * popen_result :=
  if (c =? klist_s)%string
  then (w, mkPopen "" (if w then None else exit_1))
  else if (c =? klist_l)%string
  then (w, mkPopen (if w then pr else "") None)
  else if prefix "kdestroy" c then (false, ok)
  else (true, ok).

(** Whether a run that was no dry run ended in [exit_json] with
    [changed = True], that is, after a successful acquisition. *)
Definition acquired_for_real (cm : bool) (res : Res unit) : bool :=
  negb cm &&
  match res with
  | SystemExit (ExitJson k) => Result.changed k
  | _ => false
  end.

(** ** [find] and substrings *)

Lemma prefix_iff_app (s1 s2 : string) :
  prefix s1 s2 = true <-> exists b, s2 = s1 ++ b.
Proof.
  rewrite prefix_correct. revert s2.
  induction s1 as [|c s1 IH]; intros s2; simpl.
  - split; [intros _; exists s2; reflexivity|].
    intros _. destruct s2; reflexivity.
  - destruct s2 as [|d s2]; simpl.
    + split; [discriminate|]. intros [b Hb]. discriminate.
    + split.
      * intros H. injection H as Hd Hs. apply IH in Hs as [b Hb].
        exists b. subst. reflexivity.
      * intros [b Hb]. injection Hb as Hd Hs. subst d.
        f_equal. apply IH. exists b. exact Hs.
Qed.

Lemma index_some_iff_substring (sub s : string) :
  (exists i, index 0 sub s = Some i) <-> is_substring sub s.
Proof.
  unfold is_substring.
  induction s as [|c s IH]; cbn [index].
  - destruct sub as [|d sub].
    + split; [intros _; exists "", ""; reflexivity | intros _; eauto].
    + split; [intros [i Hi]; discriminate|].
      intros [a [b H]]. destruct a; discriminate.
  - destruct (prefix sub (String c s)) eqn:Hp.
    + split; [|intros _; eauto].
      intros _. apply prefix_iff_app in Hp as [b Hb].
      exists "", b. exact Hb.
    + split.
      * intros [i Hi]. destruct (index 0 sub s) as [n|] eqn:Hn;
          [|discriminate].
        destruct IH as [IH _]. destruct IH as [a [b Hab]]; [eauto|].
        exists (String c a), b. simpl. f_equal. exact Hab.
      * intros [a [b Hab]]. destruct a as [|d a].
        -- simpl in Hab.
           assert (prefix sub (String c s) = true) as Ht
             by (apply prefix_iff_app; eauto).
           congruence.
        -- simpl in Hab. injection Hab as Hd Hs.
           destruct IH as [_ IH]. destruct IH as [n Hn]; [eauto|].
           rewrite Hn. eauto.
Qed.

(** The test of the source, [cmd_output.find(principal) != -1], holds
    exactly when the principal occurs in the listing. *)
Lemma found_iff_substring (s sub : string) :
  found s sub = true <-> is_substring sub s.
Proof.
  rewrite <- index_some_iff_substring. unfold found, py_find.
  destruct (index 0 sub s) as [i|].
  - split; [eauto|]. intros _.
    destruct (Z.eqb_spec (Z.of_nat i) (-1)); [lia | reflexivity].
  - split; [discriminate|]. intros [i Hi]. discriminate.
Qed.

Lemma not_found_iff (s sub : string) :
  found s sub = false <-> ~ is_substring sub s.
Proof.
  rewrite <- found_iff_substring. destruct (found s sub); split; congruence.
Qed.

(** ** The command lines are pairwise different *)

Lemma kinit_not_klist_s pw fl pr : kinit_cmd pw fl pr <> klist_s.
Proof. unfold kinit_cmd, klist_s. cbn. discriminate. Qed.

Lemma kinit_not_klist_l pw fl pr : kinit_cmd pw fl pr <> klist_l.
Proof. unfold kinit_cmd, klist_l. cbn. discriminate. Qed.

Lemma kinit_not_kdestroy pw fl pr pr' : kinit_cmd pw fl pr <> kdestroy_cmd pr'.
Proof. unfold kinit_cmd, kdestroy_cmd. cbn. discriminate. Qed.

Lemma kdestroy_not_klist_s pr : kdestroy_cmd pr <> klist_s.
Proof. unfold kdestroy_cmd, klist_s. cbn. discriminate. Qed.

Lemma kdestroy_not_klist_l pr : kdestroy_cmd pr <> klist_l.
Proof. unfold kdestroy_cmd, klist_l. cbn. discriminate. Qed.

Lemma klist_s_not_klist_l : klist_s <> klist_l.
Proof. discriminate. Qed.

(** Runs the module symbolically: facts about the host found among the
    hypotheses are used first, the remaining answers are split by cases. *)
Ltac use_host :=
  match goal with
  | H : ?f ?w ?c = (_, _) |- context [?f ?w ?c] => rewrite H
  | H : truthy ?x = _ |- context [truthy ?x] => rewrite H
  | H : found ?x ?y = _ |- context [found ?x ?y] => rewrite H
  end; cbn.

Ltac run_engine :=
  unfold_engine; unfold principal_of in *; cbn in *; repeat use_host.

Section Paths.

Variable World : Type.
Variable os_popen : World -> string -> World * popen_result.
Variables u p r : string.
Variables f fw : option bool.

Local Abbreviation P := (principal_of u r).
Local Abbreviation F := (forwardable_flag fw).
Local Abbreviation init := (initial_result u r f fw).
Local Abbreviation final := (final_state World).
Local Abbreviation acquired := (acquired u r f fw).

Ltac forced :=
  unfold principal_of in *; cbn in *;
  destruct f as [[|]|]; try discriminate.

(** *** Dry run *)

Lemma dry_run_force w :
  force_of f = true ->
  process os_popen (request u p r f fw true) w
  = (SystemExit (ExitJson (Result.set_changed true init)), final w []).
Proof. intros Hf. forced. reflexivity. Qed.

Lemma dry_run_invalid w w1 r1 :
  force_of f = false ->
  os_popen w klist_s = (w1, r1) ->
  truthy (close r1) = true ->
  process os_popen (request u p r f fw true) w
  = (SystemExit (ExitJson (Result.set_changed true init)),
     final w1 [(klist_s, r1)]).
Proof. intros Hf H1 T1. forced; run_engine; reflexivity. Qed.

Lemma dry_run_listed w w1 r1 w2 r2 :
  force_of f = false ->
  os_popen w klist_s = (w1, r1) ->
  truthy (close r1) = false ->
  os_popen w1 klist_l = (w2, r2) ->
  found (read r2) P = true ->
  process os_popen (request u p r f fw true) w
  = (SystemExit (ExitJson init), final w2 [(klist_s, r1); (klist_l, r2)]).
Proof. intros Hf H1 T1 H2 F2. forced; run_engine; reflexivity. Qed.

Lemma dry_run_unlisted w w1 r1 w2 r2 :
  force_of f = false ->
  os_popen w klist_s = (w1, r1) ->
  truthy (close r1) = false ->
  os_popen w1 klist_l = (w2, r2) ->
  found (read r2) P = false ->
  process os_popen (request u p r f fw true) w
  = (SystemExit (ExitJson (Result.set_changed true init)),
     final w2 [(klist_s, r1); (klist_l, r2)]).
Proof. intros Hf H1 T1 H2 F2. forced; run_engine; reflexivity. Qed.

(** *** Real run *)

Lemma run_force w w1 r1 w2 r2 :
  force_of f = true ->
  os_popen w (kdestroy_cmd P) = (w1, r1) ->
  os_popen w1 (kinit_cmd p F P) = (w2, r2) ->
  process os_popen (request u p r f fw false) w
  = (acquired r2,
     final w2 [(kdestroy_cmd P, r1); (kinit_cmd p F P, r2)]).
Proof.
  intros Hf H1 H2. forced. run_engine.
  unfold acquired. destruct (truthy (close r2)); reflexivity.
Qed.

Lemma run_invalid w w1 r1 w2 r2 :
  force_of f = false ->
  os_popen w klist_s = (w1, r1) ->
  truthy (close r1) = true ->
  os_popen w1 (kinit_cmd p F P) = (w2, r2) ->
  process os_popen (request u p r f fw false) w
  = (acquired r2, final w2 [(klist_s, r1); (kinit_cmd p F P, r2)]).
Proof.
  intros Hf H1 T1 H2. forced; run_engine;
    unfold acquired; destruct (truthy (close r2)); reflexivity.
Qed.

Lemma run_listed w w1 r1 w2 r2 :
  force_of f = false ->
  os_popen w klist_s = (w1, r1) ->
  truthy (close r1) = false ->
  os_popen w1 klist_l = (w2, r2) ->
  found (read r2) P = true ->
  process os_popen (request u p r f fw false) w
  = (SystemExit (ExitJson init), final w2 [(klist_s, r1); (klist_l, r2)]).
Proof. intros Hf H1 T1 H2 F2. forced; run_engine; reflexivity. Qed.

Lemma run_unlisted w w1 r1 w2 r2 w3 r3 :
  force_of f = false ->
  os_popen w klist_s = (w1, r1) ->
  truthy (close r1) = false ->
  os_popen w1 klist_l = (w2, r2) ->
  found (read r2) P = false ->
  os_popen w2 (kinit_cmd p F P) = (w3, r3) ->
  process os_popen (request u p r f fw false) w
  = (acquired r3,
     final w3 [(klist_s, r1); (klist_l, r2); (kinit_cmd p F P, r3)]).
Proof.
  intros Hf H1 T1 H2 F2 H3. forced; run_engine;
    unfold acquired; destruct (truthy (close r3)); reflexivity.
Qed.

(** *** Every process follows one of the eight ways *)

Lemma process_run_path cm w :
  run_path os_popen u p r f fw w cm
    (fst (process os_popen (request u p r f fw cm) w))
    (snd (process os_popen (request u p r f fw cm) w)).
Proof.
  destruct (force_of f) eqn:Hf.
  - destruct cm.
    + rewrite dry_run_force by assumption. now constructor.
    + destruct (os_popen w (kdestroy_cmd P)) as [w1 r1] eqn:H1.
      destruct (os_popen w1 (kinit_cmd p F P)) as [w2 r2] eqn:H2.
      erewrite run_force by eassumption. econstructor; eassumption.
  - destruct (os_popen w klist_s) as [w1 r1] eqn:H1.
    destruct (truthy (close r1)) eqn:T1.
    + destruct cm.
      * erewrite dry_run_invalid by eassumption.
        econstructor; eassumption.
      * destruct (os_popen w1 (kinit_cmd p F P)) as [w2 r2] eqn:H2.
        erewrite run_invalid by eassumption. econstructor; eassumption.
    + destruct (os_popen w1 klist_l) as [w2 r2] eqn:H2.
      destruct (found (read r2) P) eqn:F2.
      * destruct cm.
        -- erewrite dry_run_listed by eassumption.
           econstructor; eassumption.
        -- erewrite run_listed by eassumption. econstructor; eassumption.
      * destruct cm.
        -- erewrite dry_run_unlisted by eassumption.
           econstructor; eassumption.
        -- destruct (os_popen w2 (kinit_cmd p F P)) as [w3 r3] eqn:H3.
           erewrite run_unlisted by eassumption.
           econstructor; eassumption.
Qed.

End Paths.

(** ** Tactics for reasoning by the way a process took *)

(** Splits a process into the eight ways of [run_path]. *)
Ltac run_cases HP :=
  match type of HP with
  | run_path _ _ _ _ _ _ _ _ (fst ?x) (snd ?x) =>
      let res := fresh "res" in
      let st := fresh "st" in
      destruct x as [res st]; cbn [fst snd] in HP |- *;
      inversion HP; subst; clear HP
  end.

(** Two processes on the same host get the same answers. *)
Ltac same_host :=
  repeat match goal with
         | H1 : ?f ?w ?c = (_, _), H2 : ?f ?w ?c = (_, _) |- _ =>
             rewrite H1 in H2; injection H2 as ? ?; subst
         end;
  try congruence.

(** Splits on whether the acquisition pipeline reported a failure. *)
Ltac split_acquired :=
  unfold acquired in *;
  try match goal with
      | |- context [if truthy ?x then _ else _] =>
          let T := fresh "T" in destruct (truthy x) eqn:T
      end.

(** Closes a goal whose hypotheses equate two different command lines. *)
Ltac cmd_discr :=
  unfold kinit_cmd, kdestroy_cmd, klist_s, klist_l in *; cbn in *;
  congruence.

Section Claims.

Variable World : Type.
Variable os_popen : World -> string -> World * popen_result.
Variables u p r : string.
Variables f fw : option bool.

Local Abbreviation P := (principal_of u r).
Local Abbreviation F := (forwardable_flag fw).
Local Abbreviation init := (initial_result u r f fw).
Local Abbreviation run cm w :=
  (process os_popen (request u p r f fw cm) w).

(** C10.  On every way out of an accepted request (no-op, successful
    acquisition, failed acquisition, dry run) the process exits through
    [exit_json] or [fail_json] with keyword arguments whose [username],
    [realm], [principal] (= username + "@" + realm), [force] and
    [forwardable] token ('' unset, '-f' true, '-F' false) are the values
    computed from the request before any command was run; the result
    differs from the one built at the start in [changed] at most. *)
Theorem outcome_fields_follow_request cm w :
  exists o k,
    fst (run cm w) = SystemExit o /\
    kwargs_of o = Some k /\
    Result.username k = u /\
    Result.realm k = r /\
    Result.principal k = u ++ "@" ++ r /\
    Result.force k = force_of f /\
    Result.forwardable k =
      match fw with
      | None => ""
      | Some true => "-f"
      | Some false => "-F"
      end /\
    Result.set_changed false k = init.
Proof.
  pose proof (process_run_path World os_popen u p r f fw cm w) as HP.
  run_cases HP; split_acquired; eexists; eexists; repeat split.
Qed.

(** C4.  A dry run (check mode) hands nothing to the shell but
    [klist -s] and [klist -l], whatever the force flag, the validity of
    the ticket and the listing: neither a [kdestroy] nor a [kinit]
    command line is ever issued.  It exits through [exit_json], and the
    [changed] it reports is [true] exactly when the same request run for
    real on the same host issues the acquisition command. *)
Theorem dry_run_only_inspects w :
  (forall c, In c (commands (snd (run true w))) ->
             c = klist_s \/ c = klist_l) /\
  (forall pr, ~ In (kdestroy_cmd pr) (commands (snd (run true w)))) /\
  (forall pw fl pr,
      ~ In (kinit_cmd pw fl pr) (commands (snd (run true w)))) /\
  exists k,
    fst (run true w) = SystemExit (ExitJson k) /\
    (Result.changed k = true <->
     In (kinit_cmd p F P) (commands (snd (run false w)))).
Proof.
  pose proof (process_run_path World os_popen u p r f fw true w) as HD.
  pose proof (process_run_path World os_popen u p r f fw false w) as HR.
  run_cases HD; run_cases HR; same_host.
  all: unfold commands, final_state; cbn [calls map fst In].
  all: repeat split; try (intros; intuition (subst; cmd_discr)).
  all: eexists; split; [reflexivity|]; cbn [Result.changed Result.set_changed
                                             initial_result].
  all: split; intros; intuition (try cmd_discr).
Qed.

(** C5.  With [force] set and no dry run, the module first hands the
    line [kdestroy -q -p username@realm 2>&1] to the shell, whatever the
    host holds and whatever that command answers, then the [kinit]
    pipeline for the same principal; when the pipeline reports success
    the process exits with [changed = true].  With [force] set in a dry
    run, no command is issued and [changed = true] is reported. *)
Theorem force_destroys_then_acquires w :
  let go cm := process os_popen (request u p r (Some true) fw cm) w in
  let destroy := "kdestroy -q -p " ++ (u ++ "@" ++ r) ++ " 2>&1" in
  let acquire :=
    "echo -n '" ++ p ++ "' | kinit " ++ forwardable_flag fw ++ " "
      ++ (u ++ "@" ++ r) ++ " 2>&1 >/dev/null" in
  let (w1, r1) := os_popen w destroy in
  let (w2, r2) := os_popen w1 acquire in
  calls (snd (go false)) = [(destroy, r1); (acquire, r2)] /\
  world (snd (go false)) = w2 /\
  fst (go false)
    = SystemExit
        (if truthy (close r2)
         then FailJson (read r2) (Result.mk false u REDACTED r P true F)
         else ExitJson (Result.mk true u REDACTED r P true F)) /\
  calls (snd (go true)) = [] /\
  world (snd (go true)) = w /\
  fst (go true) = SystemExit (ExitJson (Result.mk true u REDACTED r P true F)).
Proof.
  intros go destroy acquire.
  change destroy with (kdestroy_cmd P).
  change acquire with (kinit_cmd p F P).
  clear destroy acquire.
  destruct (os_popen w (kdestroy_cmd P)) as [w1 r1] eqn:H1.
  destruct (os_popen w1 (kinit_cmd p F P)) as [w2 r2] eqn:H2.
  unfold go.
  rewrite (run_force World os_popen u p r (Some true) fw w w1 r1 w2 r2)
    by (assumption || reflexivity).
  rewrite (dry_run_force World os_popen u p r (Some true) fw w)
    by reflexivity.
  unfold acquired. cbn. destruct (truthy (close r2)); repeat split.
Qed.

(** C9.  [changed] is [true] in the outcome only when the acquisition
    went through: in a real run the last command issued is then the
    [kinit] pipeline and it reported success; in a dry run the same
    request run for real on the same host issues that pipeline.  A
    process that ends in [fail_json] reports [changed = false], and one
    that reports [changed = true] ended in [exit_json]. *)
Theorem changed_only_after_success cm w :
  exists o k,
    fst (run cm w) = SystemExit o /\
    kwargs_of o = Some k /\
    (forall msg k', o = FailJson msg k' -> Result.changed k' = false) /\
    (Result.changed k = true ->
     o = ExitJson k /\
     if cm
     then In (kinit_cmd p F P) (commands (snd (run false w)))
     else exists pre ra,
         calls (snd (run cm w)) = (pre ++ [(kinit_cmd p F P, ra)])%list /\
         truthy (close ra) = false).
Proof.
  pose proof (process_run_path World os_popen u p r f fw false w) as HR.
  destruct cm.
  - pose proof (process_run_path World os_popen u p r f fw true w) as HD.
    run_cases HD; run_cases HR; same_host.
    all: eexists; eexists; split; [reflexivity|]; split; [reflexivity|].
    all: split; [intros msg k' Hk; discriminate Hk|].
    all: unfold commands, final_state; cbn.
    all: intros Hc;
      first [discriminate Hc | split; [reflexivity | now auto 6]].
  - run_cases HR; split_acquired.
    all: eexists; eexists; split; [reflexivity|]; split; [reflexivity|].
    all: split; [intros msg k' Hk;
                 first [discriminate Hk
                       | injection Hk as _ <-; reflexivity]|].
    all: unfold final_state; cbn.
    all: intros Hc; try discriminate Hc.
    all: split; [reflexivity|].
    + exists [(kdestroy_cmd P, r1)], r2. split; [reflexivity | assumption].
    + exists [(klist_s, r1)], r2. split; [reflexivity | assumption].
    + exists [(klist_s, r1); (klist_l, r2)], r3.
      split; [reflexivity | assumption].
Qed.

(** C7.  Whenever the acquisition pipeline was run and [close()]
    reported a failure, the process ends in [fail_json]: the message is
    the text read from the pipeline, unchanged, and the keyword arguments
    are the result as built from the request, with [changed = false]. *)
Theorem acquisition_failure_is_reported cm w ra :
  In (kinit_cmd p F P, ra) (calls (snd (run cm w))) ->
  truthy (close ra) = true ->
  fst (run cm w)
  = SystemExit
      (FailJson (read ra)
         (Result.mk false u REDACTED r (u ++ "@" ++ r) (force_of f)
            (forwardable_flag fw))).
Proof.
  pose proof (process_run_path World os_popen u p r f fw cm w) as HP.
  run_cases HP; unfold final_state; cbn [calls In]; intros Hin Hfail.
  all: repeat match goal with
              | H : _ \/ _ |- _ => destruct H as [H|H]
              | H : False |- _ => destruct H
              end.
  all: try cmd_discr.
  all: injection Hin as ->; unfold acquired; rewrite Hfail; reflexivity.
Qed.

(** C8.  With [force] unset, when [klist -s] reports a valid ticket but
    the principal does not occur in the listing of [klist -l], the module
    goes on to the [kinit] pipeline for that principal, and exits with
    [changed = true] when the pipeline reports success.  (The dry run of
    the same request stops after the listing and reports
    [changed = true].) *)
Theorem other_principal_triggers_acquisition w w1 r1 w2 r2 w3 r3 :
  force_of f = false ->
  os_popen w klist_s = (w1, r1) ->
  truthy (close r1) = false ->
  os_popen w1 klist_l = (w2, r2) ->
  ~ is_substring P (read r2) ->
  os_popen w2 (kinit_cmd p F P) = (w3, r3) ->
  calls (snd (run false w))
    = [(klist_s, r1); (klist_l, r2); (kinit_cmd p F P, r3)] /\
  (truthy (close r3) = false ->
   fst (run false w)
   = SystemExit (ExitJson (Result.mk true u REDACTED r P false F))) /\
  run true w
  = (SystemExit (ExitJson (Result.mk true u REDACTED r P false F)),
     final_state World w2 [(klist_s, r1); (klist_l, r2)]).
Proof.
  intros Hf H1 T1 H2 Hn H3. apply not_found_iff in Hn.
  rewrite (run_unlisted World os_popen u p r f fw w w1 r1 w2 r2 w3 r3)
    by assumption.
  rewrite (dry_run_unlisted World os_popen u p r f fw w w1 r1 w2 r2)
    by assumption.
  unfold acquired, initial_result. rewrite Hf. cbn.
  repeat split. intros ->. reflexivity.
Qed.

(** C3, as the code has it.  With [force] unset, any failure status of
    [klist -s], whatever its cause (also the status the shell gives when
    it cannot run the program), is taken as "no valid ticket": the module
    goes straight on to the [kinit] pipeline and ends as that pipeline
    decides, and the dry run reports [changed = true].  The only ways
    out are [exit_json] and [fail_json]. *)
Theorem failed_status_leads_to_acquisition w w1 r1 w2 r2 :
  force_of f = false ->
  os_popen w klist_s = (w1, r1) ->
  truthy (close r1) = true ->
  os_popen w1 (kinit_cmd p F P) = (w2, r2) ->
  calls (snd (run false w)) = [(klist_s, r1); (kinit_cmd p F P, r2)] /\
  fst (run false w)
  = SystemExit
      (if truthy (close r2)
       then FailJson (read r2) (Result.mk false u REDACTED r P false F)
       else ExitJson (Result.mk true u REDACTED r P false F)) /\
  run true w
  = (SystemExit (ExitJson (Result.mk true u REDACTED r P false F)),
     final_state World w1 [(klist_s, r1)]).
Proof.
  intros Hf H1 T1 H2.
  rewrite (run_invalid World os_popen u p r f fw w w1 r1 w2 r2)
    by assumption.
  rewrite (dry_run_invalid World os_popen u p r f fw w w1 r1)
    by assumption.
  unfold acquired, initial_result. rewrite Hf. cbn.
  repeat split.
Qed.

(** C6.  Let [Valid] be a set of host states in which [klist -s] reports
    a valid ticket and the listing of [klist -l] contains the principal,
    and which these two queries do not leave.  With [force] unset, any
    number [n] of requests in a row from a [Valid] host each exit with
    [changed = false], issue only [klist -s] and [klist -l] (no
    [kdestroy], no [kinit]), and leave the host [Valid]. *)
Theorem valid_ticket_is_left_alone (Valid : World -> Prop) cm :
  force_of f = false ->
  (forall w, Valid w ->
     Valid (fst (os_popen w klist_s)) /\
     truthy (close (snd (os_popen w klist_s))) = false) ->
  (forall w, Valid w ->
     Valid (fst (os_popen w klist_l)) /\
     is_substring P (read (snd (os_popen w klist_l)))) ->
  forall n w, Valid w ->
    let '(rs, cs, w') :=
      repeat_process os_popen (request u p r f fw cm) n w in
    rs = repeat (SystemExit (ExitJson (Result.mk false u REDACTED r P
                                         false F))) n /\
    cs = concat (repeat [klist_s; klist_l] n) /\
    Valid w'.
Proof.
  intros Hf Hs Hl n.
  induction n as [|n IH]; intros w Hw; cbn [repeat_process repeat concat].
  - repeat split. exact Hw.
  - destruct (Hs w Hw) as [V1 T1].
    destruct (os_popen w klist_s) as [w1 r1] eqn:H1. cbn [fst snd] in *.
    destruct (Hl w1 V1) as [V2 L2].
    destruct (os_popen w1 klist_l) as [w2 r2] eqn:H2. cbn [fst snd] in *.
    apply found_iff_substring in L2.
    assert (run cm w
            = (SystemExit (ExitJson init),
               final_state World w2 [(klist_s, r1); (klist_l, r2)])) as ->.
    { destruct cm;
        [ eapply dry_run_listed | eapply run_listed ]; eassumption. }
    cbn [final_state world commands calls map fst].
    specialize (IH w2 V2).
    destruct (repeat_process os_popen (request u p r f fw cm) n w2)
      as [[rs cs] w'].
    destruct IH as (-> & -> & V').
    unfold initial_result. rewrite Hf. repeat split. exact V'.
Qed.

(** C1, as the code has it.  The [password] field of the keyword
    arguments is always the literal [[REDACTED]], and the keyword
    arguments are the result built from the other inputs, up to
    [changed]; the message of a failure is the text read from the
    acquisition pipeline.  Every command line handed to the shell is
    [klist -s], [klist -l], the [kdestroy] line for the principal, or the
    acquisition line, into which the password is copied as it is, between
    the two quotes after [echo -n].  The same request with another
    password [p'] on the same host issues the same commands with the same
    answers, up to the acquisition line at the end.  (How the shell reads
    that line, and so what [kinit] finds among its arguments, depends on
    the password and is not part of the statement.) *)
Theorem secret_only_in_kinit_pipeline cm w p' :
  (exists o k,
      fst (run cm w) = SystemExit o /\
      kwargs_of o = Some k /\
      Result.password k = "[REDACTED]" /\
      k = Result.set_changed (Result.changed k) init /\
      (forall msg k', o = FailJson msg k' ->
         exists ra,
           In (kinit_cmd p F P, ra) (calls (snd (run cm w))) /\
           msg = read ra)) /\
  (forall c, In c (commands (snd (run cm w))) ->
     c = "klist -s" \/ c = "klist -l" \/
     c = "kdestroy -q -p " ++ (u ++ "@" ++ r) ++ " 2>&1" \/
     c = "echo -n '" ++ p ++ "' | kinit " ++ forwardable_flag fw ++ " "
           ++ (u ++ "@" ++ r) ++ " 2>&1 >/dev/null") /\
  differ_in_last_only (kinit_cmd p F P) (kinit_cmd p' F P)
    (calls (snd (run cm w)))
    (calls (snd (process os_popen (request u p' r f fw cm) w))).
Proof.
  pose proof (process_run_path World os_popen u p r f fw cm w) as HP.
  pose proof (process_run_path World os_popen u p' r f fw cm w) as HP'.
  run_cases HP; run_cases HP'; same_host.
  all: unfold final_state, commands; cbn [calls map fst In].
  all: split; [|split].
  all: try (intros c Hc;
            change ("kdestroy -q -p " ++ (u ++ "@" ++ r) ++ " 2>&1")
              with (kdestroy_cmd P);
            change ("echo -n '" ++ p ++ "' | kinit " ++ forwardable_flag fw
                      ++ " " ++ (u ++ "@" ++ r) ++ " 2>&1 >/dev/null")
              with (kinit_cmd p F P);
            change "klist -s" with klist_s; change "klist -l" with klist_l;
            intuition (subst; auto)).
  all: try (left; reflexivity).
  all: try (right; eexists [_], _, _; split; reflexivity).
  all: try (right; eexists [_; _], _, _; split; reflexivity).
  all: split_acquired; eexists; eexists.
  all: split; [reflexivity|]; split; [reflexivity|].
  all: split; [reflexivity|]; split; [reflexivity|].
  all: intros msg k' Hk; try discriminate Hk.
  all: injection Hk as <- _; eexists; split; [|reflexivity]; cbn; auto.
Qed.


End Claims.

(** ** The module on concrete hosts *)

(** The scenarios of the specification, run on the example hosts. *)

Example scenario_no_ticket :
  process (stateless (answer exit_1 "" ok)) alice tt
  = (SystemExit
       (ExitJson (Result.mk true "alice" "[REDACTED]" "EXAMPLE.COM"
                            "alice@EXAMPLE.COM" false "")),
     final_state unit tt
       [("klist -s", mkPopen "" exit_1);
        ("echo -n 'hunter2' | kinit  alice@EXAMPLE.COM 2>&1 >/dev/null", ok)]).
Proof. vm_compute. reflexivity. Qed.

Example scenario_ticket_present :
  process (stateless (answer None "alice@EXAMPLE.COM" ok)) alice tt
  = (SystemExit
       (ExitJson (Result.mk false "alice" "[REDACTED]" "EXAMPLE.COM"
                            "alice@EXAMPLE.COM" false "")),
     final_state unit tt
       [("klist -s", ok); ("klist -l", mkPopen "alice@EXAMPLE.COM" None)]).
Proof. vm_compute. reflexivity. Qed.

Example scenario_force_dry_run :
  process (stateless (answer None "alice@EXAMPLE.COM" ok))
    (request "alice" "hunter2" "EXAMPLE.COM" (Some true) (Some true) true) tt
  = (SystemExit
       (ExitJson (Result.mk true "alice" "[REDACTED]" "EXAMPLE.COM"
                            "alice@EXAMPLE.COM" true "-f")),
     final_state unit tt []).
Proof. vm_compute. reflexivity. Qed.

Example scenario_force :
  process (stateless (answer None "alice@EXAMPLE.COM" ok))
    (request "alice" "hunter2" "EXAMPLE.COM" (Some true) (Some false) false)
    tt
  = (SystemExit
       (ExitJson (Result.mk true "alice" "[REDACTED]" "EXAMPLE.COM"
                            "alice@EXAMPLE.COM" true "-F")),
     final_state unit tt
       [("kdestroy -q -p alice@EXAMPLE.COM 2>&1", ok);
        ("echo -n 'hunter2' | kinit -F alice@EXAMPLE.COM 2>&1 >/dev/null",
         ok)]).
Proof. vm_compute. reflexivity. Qed.

(** C1.  The password is part of the command line handed to [os.popen]
    for the acquisition. *)
Lemma password_on_command_line :
  commands (snd (process (stateless (answer exit_1 "" ok)) alice tt))
  = ["klist -s";
     "echo -n 'hunter2' | kinit  alice@EXAMPLE.COM 2>&1 >/dev/null"] /\
  is_substring "hunter2"
    "echo -n 'hunter2' | kinit  alice@EXAMPLE.COM 2>&1 >/dev/null".
Proof.
  split; [vm_compute; reflexivity|].
  exists "echo -n '", "' | kinit  alice@EXAMPLE.COM 2>&1 >/dev/null".
  reflexivity.
Qed.

(** C3.  On a host where the shell cannot run [klist] (status 127), the
    module takes this for "no valid ticket", runs the acquisition and
    reports [changed = true]: no error comes out of it. *)
Lemma unrunnable_klist_taken_as_no_ticket :
  process (stateless (answer exit_127 "" ok)) alice tt
  = (SystemExit
       (ExitJson (Result.mk true "alice" "[REDACTED]" "EXAMPLE.COM"
                            "alice@EXAMPLE.COM" false "")),
     final_state unit tt
       [("klist -s", mkPopen "" exit_127);
        ("echo -n 'hunter2' | kinit  alice@EXAMPLE.COM 2>&1 >/dev/null", ok)]).
Proof. vm_compute. reflexivity. Qed.

Lemma failed_status_leads_to_acquisition_witness :
  calls (snd (process (stateless (answer exit_127 "" ok)) alice tt))
  = [("klist -s", mkPopen "" exit_127);
     ("echo -n 'hunter2' | kinit  alice@EXAMPLE.COM 2>&1 >/dev/null", ok)] /\
  fst (process (stateless (answer exit_127 "" ok)) alice tt)
  = SystemExit
      (ExitJson (Result.mk true "alice" "[REDACTED]" "EXAMPLE.COM"
                           "alice@EXAMPLE.COM" false "")) /\
  process (stateless (answer exit_127 "" ok))
    (request "alice" "hunter2" "EXAMPLE.COM" None None true) tt
  = (SystemExit
       (ExitJson (Result.mk true "alice" "[REDACTED]" "EXAMPLE.COM"
                            "alice@EXAMPLE.COM" false "")),
     final_state unit tt [("klist -s", mkPopen "" exit_127)]).
Proof.
  apply (failed_status_leads_to_acquisition unit
           (stateless (answer exit_127 "" ok))
           "alice" "hunter2" "EXAMPLE.COM" None None
           tt tt (mkPopen "" exit_127) tt ok); reflexivity.
Defined.

Lemma valid_ticket_is_left_alone_witness :
  let '(rs, cs, w') :=
    repeat_process (stateless (answer None "krbtgt for alice@EXAMPLE.COM" ok))
      alice 3 tt in
  rs = repeat (SystemExit
                 (ExitJson (Result.mk false "alice" "[REDACTED]" "EXAMPLE.COM"
                                      "alice@EXAMPLE.COM" false ""))) 3 /\
  cs = concat (repeat ["klist -s"; "klist -l"] 3) /\
  True.
Proof.
  apply (valid_ticket_is_left_alone unit
           (stateless (answer None "krbtgt for alice@EXAMPLE.COM" ok))
           "alice" "hunter2" "EXAMPLE.COM" None None
           (fun _ => True) false).
  - reflexivity.
  - intros w _. split; [exact I | reflexivity].
  - intros w _. split; [exact I|]. exists "krbtgt for ", "". reflexivity.
  - exact I.
Defined.

Lemma acquisition_failure_is_reported_witness :
  fst (process (stateless (answer exit_1 "" (mkPopen "bad password" exit_1)))
         alice tt)
  = SystemExit
      (FailJson "bad password"
         (Result.mk false "alice" "[REDACTED]" "EXAMPLE.COM"
                    "alice@EXAMPLE.COM" false "")).
Proof.
  apply (acquisition_failure_is_reported unit
           (stateless (answer exit_1 "" (mkPopen "bad password" exit_1)))
           "alice" "hunter2" "EXAMPLE.COM" None None false tt
           (mkPopen "bad password" exit_1)).
  - vm_compute. right. left. reflexivity.
  - reflexivity.
Defined.

Lemma other_principal_triggers_acquisition_witness :
  calls (snd (process (stateless (answer None "bob@EXAMPLE.COM" ok)) alice tt))
  = [("klist -s", ok); ("klist -l", mkPopen "bob@EXAMPLE.COM" None);
     ("echo -n 'hunter2' | kinit  alice@EXAMPLE.COM 2>&1 >/dev/null", ok)] /\
  (truthy (close ok) = false ->
   fst (process (stateless (answer None "bob@EXAMPLE.COM" ok)) alice tt)
   = SystemExit
       (ExitJson (Result.mk true "alice" "[REDACTED]" "EXAMPLE.COM"
                            "alice@EXAMPLE.COM" false ""))) /\
  process (stateless (answer None "bob@EXAMPLE.COM" ok))
    (request "alice" "hunter2" "EXAMPLE.COM" None None true) tt
  = (SystemExit
       (ExitJson (Result.mk true "alice" "[REDACTED]" "EXAMPLE.COM"
                            "alice@EXAMPLE.COM" false "")),
     final_state unit tt
       [("klist -s", ok); ("klist -l", mkPopen "bob@EXAMPLE.COM" None)]).
Proof.
  apply (other_principal_triggers_acquisition unit
           (stateless (answer None "bob@EXAMPLE.COM" ok))
           "alice" "hunter2" "EXAMPLE.COM" None None
           tt tt ok tt (mkPopen "bob@EXAMPLE.COM" None) tt ok);
    try reflexivity.
  apply not_found_iff. vm_compute. reflexivity.
Defined.



(** ** Further properties of the module *)

Section Globals.

Variable World : Type.
Variable os_popen : World -> string -> World * popen_result.
Variables u p r : string.
Variables f fw : option bool.

Local Abbreviation P := (principal_of u r).
Local Abbreviation F := (forwardable_flag fw).

(** X1.  What [main] leaves in the module-level variables before the exit
    handler runs.  The handler is registered.  Only after a successful
    acquisition in a real run has the module itself reset [cmd] and
    [password] to [None]; on every other way out (dry run, no-op, failed
    acquisition) [password] still holds the password and [cmd] the last
    command line issued (the acquisition pipeline with the password in it,
    when that failed), so it is the exit handler that removes them. *)
Theorem main_alone_leaves_password cm w :
  let run := main World os_popen (request u p r f fw cm) (initial World w) in
  atexit World (snd run) = [ClearSensitiveData] /\
  if acquired_for_real cm (fst run)
  then cmd (snd run) = PyNone /\ password (snd run) = PyNone
  else password (snd run) = PyStr p /\
       cmd (snd run) = match rev (commands (snd run)) with
                       | [] => PyNone
                       | c :: _ => PyStr c
                       end.
Proof.
  destruct f as [[|]|], cm; unfold_engine; cbn.
  all: repeat step_engine.
  all: repeat split.
Qed.

(** X2.  [clear_sensitive_data] cannot be run twice: once it has
    succeeded both names are deleted, the host and the log are as they
    were, and a second call raises [NameError] and changes nothing. *)
Theorem clear_sensitive_data_twice_raises (st st' : State World) :
  clear_sensitive_data World st = (Ret tt, st') ->
  cmd st' = Unbound /\ password st' = Unbound /\
  world st' = world st /\ calls st' = calls st /\
  clear_sensitive_data World st' = (Raise NameError, st').
Proof.
  unfold clear_sensitive_data, bind, del_cmd, del_password, gc_collect, ret.
  destruct st as [w c pw hs cs]; cbn.
  destruct c, pw; cbn; intros H; inversion H; subst; cbn; repeat split.
Qed.

End Globals.

Lemma clear_sensitive_data_twice_raises_witness :
  cmd (mkState unit tt Unbound Unbound [] []) = Unbound /\
  password (mkState unit tt Unbound Unbound [] []) = Unbound /\
  world (mkState unit tt Unbound Unbound [] []) = world (initial unit tt) /\
  calls (mkState unit tt Unbound Unbound [] []) = calls (initial unit tt) /\
  clear_sensitive_data unit (mkState unit tt Unbound Unbound [] [])
  = (Raise NameError, mkState unit tt Unbound Unbound [] []).
Proof.
  apply (clear_sensitive_data_twice_raises unit (initial unit tt)).
  reflexivity.
Defined.

Section Commands.

Variable World : Type.
Variable os_popen : World -> string -> World * popen_result.
Variables u p r : string.
Variables f fw : option bool.

Local Abbreviation P := (principal_of u r).
Local Abbreviation F := (forwardable_flag fw).
Local Abbreviation run cm w :=
  (process os_popen (request u p r f fw cm) w).

(** X3.  Which option leads to which command.  A [kdestroy] command is
    issued only by a real run with [force] set: without [force], or in a
    dry run, an existing ticket is never destroyed.  The cache is queried
    ([klist -s], [klist -l]) only when [force] is unset, and the listing
    only after the status query. *)
Theorem kdestroy_only_when_forced cm w :
  (forall pr, In (kdestroy_cmd pr) (commands (snd (run cm w))) ->
              force_of f = true /\ cm = false) /\
  (In klist_s (commands (snd (run cm w))) -> force_of f = false) /\
  (In klist_l (commands (snd (run cm w))) ->
   force_of f = false /\
   exists rest, commands (snd (run cm w)) = klist_s :: klist_l :: rest).
Proof.
  pose proof (process_run_path World os_popen u p r f fw cm w) as HP.
  run_cases HP; unfold final_state, commands; cbn [calls map fst In].
  all: repeat split; intros;
    repeat match goal with
           | H : _ \/ _ |- _ => destruct H as [H|H]
           | H : False |- _ => destruct H
           end;
    try assumption; try cmd_discr; eexists; reflexivity.
Qed.

(** X4.  The password is used at most once: a process issues the
    acquisition pipeline at most once, as its last command, and never in a
    dry run; before it come at most two commands, none of them a [kinit]
    pipeline. *)
Theorem acquisition_at_most_once_and_last cm w :
  exists pre,
    (commands (snd (run cm w)) = pre \/
     cm = false /\
     commands (snd (run cm w)) = (pre ++ [kinit_cmd p F P])%list) /\
    (forall pw fl pr, ~ In (kinit_cmd pw fl pr) pre) /\
    (length pre <= 2)%nat.
Proof.
  pose proof (process_run_path World os_popen u p r f fw cm w) as HP.
  run_cases HP; unfold final_state, commands; cbn [calls map fst];
    [ exists [] | exists [klist_s]
    | exists [klist_s; klist_l] | exists [klist_s; klist_l]
    | exists [kdestroy_cmd P] | exists [klist_s]
    | exists [klist_s; klist_l] | exists [klist_s; klist_l] ].
  all: split; [first [left; reflexivity | right; split; reflexivity]|].
  all: split; [|cbn; lia].
  all: intros pw fl pr Hin; cbn [In] in Hin;
    repeat match goal with
           | H : _ \/ _ |- _ => destruct H as [H|H]
           | H : False |- _ => destruct H
           end; cmd_discr.
Qed.

(** X5.  A dry run does exactly the inspection of the real run: run on
    the same host, the log of the real run starts with the whole log of
    the dry run, the host of the dry run is the one the real run had at
    that point, and the real run goes on from there exactly when the dry
    run reports [changed = true]. *)
Theorem dry_run_is_prefix_of_real_run w :
  let dry := process os_popen (request u p r f fw true) w in
  let real := process os_popen (request u p r f fw false) w in
  exists k rest,
    fst dry = SystemExit (ExitJson k) /\
    calls (snd real) = (calls (snd dry) ++ rest)%list /\
    (rest = [] <-> Result.changed k = false) /\
    (rest = [] -> real = dry).
Proof.
  intros dry real. subst dry real.
  pose proof (process_run_path World os_popen u p r f fw true w) as HD.
  pose proof (process_run_path World os_popen u p r f fw false w) as HR.
  run_cases HD; run_cases HR; same_host.
  all: unfold final_state; cbn [calls].
  all: eexists; eexists; split; [reflexivity|].
  all: split;
    [ first [ instantiate (1 := []); reflexivity
            | instantiate (1 := [_]); reflexivity
            | instantiate (1 := [_; _]); reflexivity ] |].
  all: cbn; split; [split; intros H'; try discriminate H'; reflexivity|].
  all: intros H'; try discriminate H'; reflexivity.
Qed.

End Commands.

(** A text that contains another is at least as long. *)
Lemma append_length (a b : string) :
  String.length (a ++ b) = (String.length a + String.length b)%nat.
Proof. induction a as [|c a IH]; cbn; [reflexivity | now rewrite IH]. Qed.

Lemma substring_not_longer (sub s : string) :
  is_substring sub s -> (String.length sub <= String.length s)%nat.
Proof.
  intros [a [b ->]]. rewrite !append_length. lia.
Qed.

Lemma principal_length (u r : string) :
  String.length (principal_of u r)
  = (String.length u + 1 + String.length r)%nat.
Proof. unfold principal_of. rewrite !append_length. cbn. lia. Qed.

Section Decisions.

Variable World : Type.
Variable os_popen : World -> string -> World * popen_result.
Variables u r : string.
Variable f : option bool.

Local Abbreviation P := (principal_of u r).

(** X6.  Neither the password nor the [forwardable] option takes part in
    the decision.  Two requests for the same principal and [force] that
    differ in these two inputs, on the same host: their dry runs issue the
    same commands, leave the same host and report the same [changed];
    their real runs issue the same commands with the same answers up to
    the acquisition pipeline at the end.  A ticket already in the cache is
    kept whatever password or flag the request carries. *)
Theorem decision_ignores_password_and_flag (p p' : string)
    (fw fw' : option bool) w :
  let d := process os_popen (request u p r f fw true) w in
  let d' := process os_popen (request u p' r f fw' true) w in
  (calls (snd d) = calls (snd d') /\
   world (snd d) = world (snd d') /\
   exists k k',
     fst d = SystemExit (ExitJson k) /\
     fst d' = SystemExit (ExitJson k') /\
     Result.changed k = Result.changed k') /\
  differ_in_last_only
    (kinit_cmd p (forwardable_flag fw) P)
    (kinit_cmd p' (forwardable_flag fw') P)
    (calls (snd (process os_popen (request u p r f fw false) w)))
    (calls (snd (process os_popen (request u p' r f fw' false) w))).
Proof.
  split.
  - pose proof (process_run_path World os_popen u p r f fw true w) as HP.
    pose proof (process_run_path World os_popen u p' r f fw' true w) as HP'.
    run_cases HP; run_cases HP'; same_host.
    all: repeat split; eexists; eexists; repeat split.
  - pose proof (process_run_path World os_popen u p r f fw false w) as HP.
    pose proof (process_run_path World os_popen u p' r f fw' false w) as HP'.
    run_cases HP; run_cases HP'; same_host.
    all: unfold final_state; cbn [calls].
    all: try (left; reflexivity).
    all: try (right; eexists [_], _, _; split; reflexivity).
    all: right; eexists [_; _], _, _; split; reflexivity.
Qed.

End Decisions.

Section Sequences.

Variable World : Type.
Variable os_popen : World -> string -> World * popen_result.
Variables u p r : string.
Variables f fw : option bool.

Local Abbreviation P := (principal_of u r).
Local Abbreviation F := (forwardable_flag fw).
Local Abbreviation run cm w :=
  (process os_popen (request u p r f fw cm) w).

(** X8.  A listing that is shorter than the principal, an empty one among
    them, never counts as a ticket for it: with [force] unset and a valid
    status, the real run still issues the acquisition pipeline and the
    dry run reports [changed = true]. *)
Theorem short_listing_acquires w w1 r1 w2 r2 :
  force_of f = false ->
  os_popen w klist_s = (w1, r1) ->
  truthy (close r1) = false ->
  os_popen w1 klist_l = (w2, r2) ->
  (String.length (read r2) < String.length u + 1 + String.length r)%nat ->
  commands (snd (run false w)) = [klist_s; klist_l; kinit_cmd p F P] /\
  fst (run true w)
  = SystemExit (ExitJson (Result.mk true u REDACTED r P false F)).
Proof.
  intros Hf H1 T1 H2 Hlen.
  assert (found (read r2) P = false) as Hn.
  { apply not_found_iff. intros Hs. apply substring_not_longer in Hs.
    rewrite principal_length in Hs. lia. }
  destruct (os_popen w2 (kinit_cmd p F P)) as [w3 r3] eqn:H3.
  rewrite (run_unlisted World os_popen u p r f fw w w1 r1 w2 r2 w3 r3)
    by assumption.
  rewrite (dry_run_unlisted World os_popen u p r f fw w w1 r1 w2 r2)
    by assumption.
  unfold initial_result. rewrite Hf. split; reflexivity.
Qed.

(** X9.  Forced requests never become no-ops: [n] real requests in a row
    with [force] set issue, on any host, [n] times the line
    [kdestroy -q -p username@realm 2>&1] followed by the acquisition
    pipeline for that principal, and nothing else. *)
Theorem forced_requests_always_reacquire n w :
  let '(rs, cs, _) :=
    repeat_process os_popen (request u p r (Some true) fw false) n w in
  cs = concat
         (repeat
            ["kdestroy -q -p " ++ (u ++ "@" ++ r) ++ " 2>&1";
             "echo -n '" ++ p ++ "' | kinit " ++ forwardable_flag fw ++ " "
               ++ (u ++ "@" ++ r) ++ " 2>&1 >/dev/null"] n) /\
  length rs = n.
Proof.
  change ("kdestroy -q -p " ++ (u ++ "@" ++ r) ++ " 2>&1")
    with (kdestroy_cmd P).
  change ("echo -n '" ++ p ++ "' | kinit " ++ forwardable_flag fw ++ " "
            ++ (u ++ "@" ++ r) ++ " 2>&1 >/dev/null")
    with (kinit_cmd p F P).
  revert w. induction n as [|n IH]; intros w;
    cbn [repeat_process repeat concat].
  - split; reflexivity.
  - destruct (os_popen w (kdestroy_cmd P)) as [w1 r1] eqn:H1.
    destruct (os_popen w1 (kinit_cmd p F P)) as [w2 r2] eqn:H2.
    rewrite (run_force World os_popen u p r (Some true) fw w w1 r1 w2 r2)
      by (assumption || reflexivity).
    cbn [final_state world commands calls map fst].
    specialize (IH w2).
    destruct (repeat_process os_popen
                (request u p r (Some true) fw false) n w2) as [[rs cs] w'].
    destruct IH as [-> Hl]. split; [reflexivity | cbn; now rewrite Hl].
Qed.

(** X10.  Acquiring and asking again.  On a host without a valid ticket
    where the acquisition succeeds and after which the cache is valid and
    lists the principal, two real requests in a row without [force] give
    [changed = true] and then [changed = false]; the second one only
    queries the cache. *)
Theorem second_request_is_noop w w1 r1 w2 r2 w3 r3 w4 r4 :
  force_of f = false ->
  os_popen w klist_s = (w1, r1) ->
  truthy (close r1) = true ->
  os_popen w1 (kinit_cmd p F P) = (w2, r2) ->
  truthy (close r2) = false ->
  os_popen w2 klist_s = (w3, r3) ->
  truthy (close r3) = false ->
  os_popen w3 klist_l = (w4, r4) ->
  is_substring P (read r4) ->
  repeat_process os_popen (request u p r f fw false) 2 w
  = ([SystemExit (ExitJson (Result.mk true u REDACTED r P false F));
      SystemExit (ExitJson (Result.mk false u REDACTED r P false F))],
     [klist_s; kinit_cmd p F P; klist_s; klist_l],
     w4).
Proof.
  intros Hf H1 T1 H2 T2 H3 T3 H4 L4.
  apply found_iff_substring in L4.
  cbn [repeat_process].
  rewrite (run_invalid World os_popen u p r f fw w w1 r1 w2 r2)
    by assumption.
  cbn [final_state world].
  rewrite (run_listed World os_popen u p r f fw w2 w3 r3 w4 r4)
    by assumption.
  unfold acquired, initial_result. rewrite T2, Hf. reflexivity.
Qed.

(** X11.  The exit handler never fails: in the state [main] leaves,
    whatever the arguments and the host, every registered function runs
    to its end (both names are still bound when it deletes them). *)
Theorem exit_handler_never_raises (inv : Invocation) w :
  let st := snd (main World os_popen inv (initial World w)) in
  Forall (fun fn => fst (call_atexit World fn st) = Ret tt)
         (atexit World st).
Proof.
  destruct inv as [[u0|] [p0|] [r0|] [[|]|] fw0 [|]];
    unfold_engine; unfold call_atexit, clear_sensitive_data, bind, del_cmd,
      del_password, gc_collect, ret; cbn.
  all: repeat step_engine.
  all: repeat constructor.
Qed.

End Sequences.

Lemma short_listing_acquires_witness :
  commands (snd (process (stateless (answer None "" ok)) alice tt))
  = ["klist -s"; "klist -l";
     "echo -n 'hunter2' | kinit  alice@EXAMPLE.COM 2>&1 >/dev/null"] /\
  fst (process (stateless (answer None "" ok))
         (request "alice" "hunter2" "EXAMPLE.COM" None None true) tt)
  = SystemExit
      (ExitJson (Result.mk true "alice" "[REDACTED]" "EXAMPLE.COM"
                           "alice@EXAMPLE.COM" false "")).
Proof.
  apply (short_listing_acquires unit (stateless (answer None "" ok))
           "alice" "hunter2" "EXAMPLE.COM" None None
           tt tt ok tt (mkPopen "" None)); try reflexivity.
  cbn. lia.
Defined.

Lemma second_request_is_noop_witness :
  repeat_process (cache_host "alice@EXAMPLE.COM") alice 2 false
  = ([SystemExit
        (ExitJson (Result.mk true "alice" "[REDACTED]" "EXAMPLE.COM"
                             "alice@EXAMPLE.COM" false ""));
      SystemExit
        (ExitJson (Result.mk false "alice" "[REDACTED]" "EXAMPLE.COM"
                             "alice@EXAMPLE.COM" false ""))],
     ["klist -s";
      "echo -n 'hunter2' | kinit  alice@EXAMPLE.COM 2>&1 >/dev/null";
      "klist -s"; "klist -l"],
     true).
Proof.
  apply (second_request_is_noop bool (cache_host "alice@EXAMPLE.COM")
           "alice" "hunter2" "EXAMPLE.COM" None None
           false false (mkPopen "" exit_1) true ok true ok
           true (mkPopen "alice@EXAMPLE.COM" None)); try reflexivity.
  exists "", "". reflexivity.
Defined.
